(** * PrecacheStrategy: the precaching strategy of workbox-precaching

    A shallow embedding of
    [packages/workbox-precaching/src/utils/PrecacheStrategy.ts] and the
    properties its specification states about it.

    The strategy talks to three asynchronous collaborators of its handler
    ([cacheMatch], [fetch], [fetchAndCachePut]) and to the logger.  The
    embedding threads an explicit run state through every call: the list of
    collaborator calls made so far, and the collaborators' own world (cache
    store, network).  A thrown exception keeps the state reached so far, as
    a rejected promise leaves earlier side effects in place. *)

From Stdlib Require Import ZArith.
From stdpp Require Import base option list strings gmap.

(** ** Data model *)

(** The JavaScript values the strategy inspects or reports. *)
Inductive JsValue : Type :=
| JsUndefined
| JsNull
| JsBoolean (b : bool)
| JsNumber (n : Z)
| JsString (s : string).

(** [a === b] on the values above. *)
Definition strict_equals (a b : JsValue) : bool :=
  match a, b with
  | JsUndefined, JsUndefined => true
  | JsNull, JsNull => true
  | JsBoolean x, JsBoolean y => Bool.eqb x y
  | JsNumber x, JsNumber y => (x =? y)%Z
  | JsString x, JsString y => bool_decide (x = y)
  | _, _ => false
  end.

Record Request : Type := { url : string; method : string }.

Record Response : Type := {
  status : Z;
  redirected : bool;
  headers : list (string * string);
  body : string
}.

(** [handler.event]: only its [type] is read. *)
Record ExtendableEvent : Type := { type : string }.

(** [handler.params]: the per-call parameters.  Both fields are untyped in
    the source ([params?: any]), hence [JsValue]. *)
Record HandlerParams : Type := {
  fallbackToNetwork : JsValue;
  cacheKey : JsValue
}.

(** What a call can end with besides a value. *)
Inductive Thrown : Type :=
| WorkboxError (code : string) (details : list (string * JsValue))
| TypeError (message : string)
| Rejected (reason : string).

(** A [cacheWillUpdate] callback.  The source tells the built-in callback
    from caller-supplied ones by function identity
    ([plugin.cacheWillUpdate !== copyRedirectedResponses]); a function has
    no identity here, so a callback is a tagged reference: either the
    module's own [copyRedirectedResponses] or a caller's function. *)
Inductive CacheWillUpdate : Type :=
| copyRedirectedResponses_ref
| caller_callback (name : string) (f : Response -> Response).

Record WorkboxPlugin : Type := { cacheWillUpdate : option CacheWillUpdate }.

Record StrategyOptions : Type := {
  options_cacheName : string;
  options_plugins : option (list WorkboxPlugin)
}.

Record PrecacheStrategy : Type := {
  cacheName : string;
  plugins : list WorkboxPlugin
}.

(** An argument of a logger call.  [getFriendlyURL] is kept symbolic. *)
Inductive LogArg : Type :=
| LogText (s : string)
| LogFriendlyURL (u : string)
| LogValue (v : JsValue)
| LogRequest (r : Request)
| LogResponse (r : option Response).

(** The calls the strategy makes on its collaborators, in order. *)
Inductive Call : Type :=
| CacheMatchCall (request : Request)
| FetchCall (request : Request)
| FetchAndCachePutCall (request : Request)
| LoggerCall (method : string) (args : list LogArg).

(** ** Effects *)

Record Run (W : Type) : Type := MkRun { calls : list Call; world : W }.
Arguments MkRun {W} _ _.
Arguments calls {W} _.
Arguments world {W} _.

Definition Async (W A : Type) : Type := Run W -> (Thrown + A) * Run W.

Definition resolve {W A} (a : A) : Async W A := fun s => (inr a, s).

Definition throw {W A} (e : Thrown) : Async W A := fun s => (inl e, s).

Definition and_then {W A B} (c : Async W A) (k : A -> Async W B) : Async W B :=
  fun s =>
    match c s with
    | (inl e, s') => (inl e, s')
    | (inr a, s') => k a s'
    end.

Notation "x <- c ;; k" := (and_then c (fun x => k))
  (at level 100, c at next level, right associativity).
Notation "c ;; k" := (and_then c (fun _ => k))
  (at level 100, right associativity).

(** The result of one collaborator operation on the collaborators' world:
    a rejection with its reason, or the resolved value, which may be
    [undefined] ([None]). *)
Definition Settled (W : Type) : Type := (string + option Response) * W.

(** [StrategyHandler], as far as the strategy uses it. *)
Record StrategyHandler (W : Type) : Type := {
  event : option ExtendableEvent;
  params : option HandlerParams;
  cacheMatch : Request -> W -> Settled W;
  fetch : Request -> W -> Settled W;
  fetchAndCachePut : Request -> W -> Settled W
}.
Arguments event {W} _.
Arguments params {W} _.
Arguments cacheMatch {W} _ _ _.
Arguments fetch {W} _ _ _.
Arguments fetchAndCachePut {W} _ _ _.

(** [await op(...)]: run the operation on the world, record the call, and
    propagate a rejection unmodified. *)
Definition await {W} (c : Call) (op : W -> Settled W) : Async W (option Response) :=
  fun s =>
    let '(res, w') := op (world s) in
    let s' := MkRun (calls s ++ [c]) w' in
    match res with
    | inl reason => (inl (Rejected reason), s')
    | inr v => (inr v, s')
    end.

Definition logger {W} (method : string) (args : list LogArg) : Async W unit :=
  fun s => (inr tt, MkRun (calls s ++ [LoggerCall method args]) (world s)).

(** [handler.params.cacheKey]: reading a property of [undefined] throws. *)
Definition params_cacheKey {W} (p : option HandlerParams) : Async W JsValue :=
  match p with
  | Some ps => resolve (cacheKey ps)
  | None => throw (TypeError "Cannot read properties of undefined (reading 'cacheKey')")
  end.

(** [response.status]: likewise. *)
Definition response_status {W} (r : option Response) : Async W Z :=
  match r with
  | Some resp => resolve (status resp)
  | None => throw (TypeError "Cannot read properties of undefined (reading 'status')")
  end.

(** [Boolean(response)]: a Response object is truthy, [undefined] is not. *)
Definition Boolean (r : option Response) : bool :=
  match r with Some _ => true | None => false end.

(** ** The strategy *)

(** Modelled from the spec: [copyResponse] of workbox-core is not part of
    the sources at hand.  The spec (4.4) says it produces a semantically
    equivalent response with the redirect flag cleared, preserving status,
    headers and body. *)
Definition copyResponse (response : Response) : Response :=
  {| status := status response;
     redirected := false;
     headers := headers response;
     body := body response |}.

Definition copyRedirectedResponses (response : Response) : Response :=
  if redirected response then copyResponse response else response.

(** Calling a [cacheWillUpdate] callback. *)
Definition call_cacheWillUpdate (cb : CacheWillUpdate) (response : Response) : Response :=
  match cb with
  | copyRedirectedResponses_ref => copyRedirectedResponses response
  | caller_callback _ f => f response
  end.

(** [cb !== copyRedirectedResponses]. *)
Definition not_copyRedirectedResponses (cb : CacheWillUpdate) : bool :=
  match cb with
  | copyRedirectedResponses_ref => false
  | caller_callback _ _ => true
  end.

(** Modelled from the spec: the constructor of the base class [Strategy]
    is not part of the sources at hand.  The spec (3) says the cache name
    and the hook sequence are configured at construction; an absent
    [options.plugins] gives an empty sequence. *)
Definition Strategy_constructor (options : StrategyOptions) : PrecacheStrategy :=
  {| cacheName := options_cacheName options;
     plugins := default [] (options_plugins options) |}.

(** [this.plugins.push({cacheWillUpdate: copyRedirectedResponses})]:
    [push] appends at the end.  This is the content of the array after the
    push; that the array is changed in place, for every holder of it, is
    modelled by [Array_push] and [constructor_ref] below. *)
Definition push {A} (l : list A) (x : A) : list A := l ++ [x].

Definition constructor (options : StrategyOptions) : PrecacheStrategy :=
  let this := Strategy_constructor options in
  {| cacheName := cacheName this;
     plugins := push (plugins this) {| cacheWillUpdate := Some copyRedirectedResponses_ref |} |}.

Definition _usesCustomCacheableResponseLogic (this : PrecacheStrategy) : bool :=
  (fix loop (ps : list WorkboxPlugin) : bool :=
     match ps with
     | [] => false
     | plugin :: rest =>
         match cacheWillUpdate plugin with
         | Some cb => if not_copyRedirectedResponses cb then true else loop rest
         | None => loop rest
         end
     end) (plugins this).

(** [process.env.NODE_ENV !== 'production'] *)
Definition not_production (NODE_ENV : string) : bool :=
  negb (bool_decide (NODE_ENV = "production")).

(** [handler.params && handler.params.fallbackToNetwork === false] *)
Definition fallback_disabled {W} (handler : StrategyHandler W) : bool :=
  match params handler with
  | Some ps => strict_equals (fallbackToNetwork ps) (JsBoolean false)
  | None => false
  end.

Definition _handleFetch {W} (NODE_ENV : string) (this : PrecacheStrategy)
    (request : Request) (handler : StrategyHandler W) : Async W (option Response) :=
  response <- await (CacheMatchCall request) (cacheMatch handler request) ;;
  response <-
    (if negb (Boolean response) then
       if fallback_disabled handler then
         throw (WorkboxError "missing-precache-entry"
                  [("cacheName", JsString (cacheName this));
                   ("url", JsString (url request))])
       else
         (if not_production NODE_ENV then
            logger "warn"
              [LogText "The precached response for ";
               LogFriendlyURL (url request);
               LogText " in ";
               LogText (cacheName this);
               LogText " was not found. Falling back to the network instead."]
          else resolve tt) ;;
         await (FetchCall request) (fetch handler request)
     else resolve response) ;;
  (if not_production NODE_ENV then
     logger "groupCollapsed"
       [LogText "Precaching is responding to: "; LogFriendlyURL (url request)] ;;
     key <- params_cacheKey (params handler) ;;
     logger "log" [LogText "Serving the precached url: "; LogValue key] ;;
     logger "groupCollapsed" [LogText "View request details here."] ;;
     logger "log" [LogRequest request] ;;
     logger "groupEnd" [] ;;
     logger "groupCollapsed" [LogText "View response details here."] ;;
     logger "log" [LogResponse response] ;;
     logger "groupEnd" [] ;;
     logger "groupEnd" []
   else resolve tt) ;;
  resolve response.

Definition _handleInstall {W} (this : PrecacheStrategy)
    (request : Request) (handler : StrategyHandler W) : Async W (option Response) :=
  response <- await (FetchAndCachePutCall request) (fetchAndCachePut handler request) ;;
  let responseSafeToPrecache := Boolean response in
  let responseSafeToPrecache :=
    if match response with
       | Some r => (status r >=? 400)%Z && negb (_usesCustomCacheableResponseLogic this)
       | None => false
       end
    then false
    else responseSafeToPrecache in
  if negb responseSafeToPrecache then
    st <- response_status response ;;
    throw (WorkboxError "bad-precaching-response"
             [("url", JsString (url request)); ("status", JsNumber st)])
  else resolve response.

(** [handler.event && handler.event.type === 'install'] *)
Definition is_install {W} (handler : StrategyHandler W) : bool :=
  match event handler with
  | Some ev => bool_decide (type ev = "install")
  | None => false
  end.

Definition _handle {W} (NODE_ENV : string) (this : PrecacheStrategy)
    (request : Request) (handler : StrategyHandler W) : Async W (option Response) :=
  if is_install handler then _handleInstall this request handler
  else _handleFetch NODE_ENV this request handler.

(** ** The collaborators *)

(** One commit to the cache store: the key, the stored response and the
    [cacheWillUpdate] callbacks that were evaluated for it, in order. *)
Record StoreCommit : Type := {
  commit_url : string;
  commit_response : Response;
  commit_order : list CacheWillUpdate
}.

(** The world of the collaborators: the cache store of the strategy's cache
    name, the URLs that went to the network, and the commits made. *)
Record World : Type := {
  store : gmap string Response;
  fetched : list string;
  commits : list StoreCommit
}.

(** Modelled from the spec: the plugin pipeline of [StrategyHandler] is not
    part of the sources at hand.  The spec (3) says the transforms run in
    registration order; a bundle without a will-update transform is
    skipped.  The callbacks evaluated are returned next to the result. *)
Fixpoint run_cacheWillUpdate (ps : list WorkboxPlugin) (response : Response)
    : Response * list CacheWillUpdate :=
  match ps with
  | [] => (response, [])
  | plugin :: rest =>
      match cacheWillUpdate plugin with
      | Some cb =>
          let '(r, order) := run_cacheWillUpdate rest (call_cacheWillUpdate cb response) in
          (r, cb :: order)
      | None => run_cacheWillUpdate rest response
      end
  end.

(** Modelled from the spec: [handler.cacheMatch], the Cache Store's
    [lookup(request) -> Response | not-found] (6). *)
Definition CacheStore_lookup (request : Request) (w : World) : Settled World :=
  (inr (store w !! url request), w).

(** Modelled from the spec: [handler.fetch], the Network Fetcher's
    [fetch(request) -> Response], which may fail (6).  [network] is what
    the network answers for a URL. *)
Definition NetworkFetcher_fetch (network : string -> option Response)
    (request : Request) (w : World) : Settled World :=
  let w' := {| store := store w;
               fetched := fetched w ++ [url request];
               commits := commits w |} in
  match network (url request) with
  | Some response => (inr (Some response), w')
  | None => (inl "network failure", w')
  end.

(** Modelled from the spec: [handler.fetchAndCachePut], the Cache Store's
    [fetchAndStore(request, transformChain) -> Response] (6): a network
    fetch; on success the full transform chain runs and the resulting
    response is committed to the store (4.3, step 1). *)
Definition CacheStore_fetchAndStore (network : string -> option Response)
    (this : PrecacheStrategy) (request : Request) (w : World) : Settled World :=
  match NetworkFetcher_fetch network request w with
  | (inr (Some response), w1) =>
      let '(r, order) := run_cacheWillUpdate (plugins this) response in
      (inr (Some response),
       {| store := <[url request := r]> (store w1);
          fetched := fetched w1;
          commits := commits w1 ++
            [{| commit_url := url request; commit_response := r; commit_order := order |}] |})
  | other => other
  end.

(** The handler of one call, over these collaborators. *)
Definition spec_handler (network : string -> option Response) (this : PrecacheStrategy)
    (ev : option ExtendableEvent) (ps : option HandlerParams) : StrategyHandler World :=
  {| event := ev;
     params := ps;
     cacheMatch := CacheStore_lookup;
     fetch := NetworkFetcher_fetch network;
     fetchAndCachePut := CacheStore_fetchAndStore network this |}.

(** A handler whose collaborators all resolve to the same given value and
    keep no state: the least a caller can pass to the strategy. *)
Definition constant_handler (ev : option ExtendableEvent) (ps : option HandlerParams)
    (v : option Response) : StrategyHandler unit :=
  {| event := ev;
     params := ps;
     cacheMatch := fun _ w => (inr v, w);
     fetch := fun _ w => (inr v, w);
     fetchAndCachePut := fun _ w => (inr v, w) |}.

(** A handler whose collaborators all reject with the given reason. *)
Definition rejecting_handler (ev : option ExtendableEvent) (ps : option HandlerParams)
    (reason : string) : StrategyHandler unit :=
  {| event := ev;
     params := ps;
     cacheMatch := fun _ w => (inl reason, w);
     fetch := fun _ w => (inl reason, w);
     fetchAndCachePut := fun _ w => (inl reason, w) |}.

(** ** Observations on a run *)

Definition is_fetch (c : Call) : bool :=
  match c with FetchCall _ => true | _ => false end.

Definition is_cacheMatch (c : Call) : bool :=
  match c with CacheMatchCall _ => true | _ => false end.

(** The network fetches, resp. cache lookups, among the given calls. *)
Definition fetches (cs : list Call) : list Call := List.filter is_fetch cs.
Definition lookups (cs : list Call) : list Call := List.filter is_cacheMatch cs.

Definition is_missing_entry (out : Thrown + option Response) : bool :=
  match out with
  | inl (WorkboxError code _) => bool_decide (code = "missing-precache-entry")
  | _ => false
  end.

Definition is_bad_response (out : Thrown + option Response) : bool :=
  match out with
  | inl (WorkboxError code _) => bool_decide (code = "bad-precaching-response")
  | _ => false
  end.

(** The plugin the constructor registers. *)
Definition redirect_plugin : WorkboxPlugin :=
  {| cacheWillUpdate := Some copyRedirectedResponses_ref |}.

Definition is_redirect_plugin (p : WorkboxPlugin) : bool :=
  match cacheWillUpdate p with
  | Some cb => negb (not_copyRedirectedResponses cb)
  | None => false
  end.

(** How often the redirect-normalizing transform occurs in a hook set. *)
Definition redirect_occurrences (ps : list WorkboxPlugin) : nat :=
  length (List.filter is_redirect_plugin ps).

(** The callbacks a store operation evaluates for the strategy, in order. *)
Definition evaluation_order (this : PrecacheStrategy) (response : Response)
    : list CacheWillUpdate :=
  snd (run_cacheWillUpdate (plugins this) response).


Definition is_logger (c : Call) : bool :=
  match c with LoggerCall _ _ => true | _ => false end.

Definition is_fetchAndCachePut (c : Call) : bool :=
  match c with FetchAndCachePutCall _ => true | _ => false end.

Definition is_warn (c : Call) : bool :=
  match c with LoggerCall m _ => bool_decide (m = "warn") | _ => false end.

(** The logger calls, the fetch-and-store calls and the warnings among the
    given calls, and the calls that are not logger calls. *)
Definition logged (cs : list Call) : list Call := List.filter is_logger cs.
Definition stores (cs : list Call) : list Call := List.filter is_fetchAndCachePut cs.
Definition warnings (cs : list Call) : list Call := List.filter is_warn cs.
Definition collaborator_calls (cs : list Call) : list Call :=
  List.filter (fun c => negb (is_logger c)) cs.

(** ** The hook array, by reference *)

(** [this.plugins] is a JavaScript array and [push] (line 33) changes it in
    place: every holder of the same array sees the new element.  Arrays
    live in a heap, by address, and an instance holds the address of its
    hook array; [constructor] above gives the content of that array right
    after the construction. *)
Abbreviation Arrays := (gmap nat (list WorkboxPlugin)).








(** ** Sample data *)

Definition app_js : Request := {| url := "/app.js"; method := "GET" |}.

Definition response_with (code : Z) (redirect : bool) : Response :=
  {| status := code;
     redirected := redirect;
     headers := [("content-type", "text/javascript")];
     body := "console.log(1)" |}.

Definition ok_response : Response := response_with 200 false.
Definition not_found : Response := response_with 404 false.
Definition opaque_response : Response := response_with 0 false.
Definition redirected_response : Response := response_with 200 true.

Definition network_answering (response : Response) : string -> option Response :=
  fun u => if bool_decide (u = "/app.js") then Some response else None.

Definition empty_world : World := {| store := ∅; fetched := []; commits := [] |}.

Definition cached_world : World :=
  {| store := {[ "/app.js" := ok_response ]}; fetched := []; commits := [] |}.

Definition start {W} (w : W) : Run W := MkRun [] w.

(** A caller's plugin with a will-update transform of its own. *)
Definition accept_all : WorkboxPlugin :=
  {| cacheWillUpdate := Some (caller_callback "acceptAll" (fun response => response)) |}.

(** A caller's transform that reports whether the response it is given
    still carries the redirect flag. *)
Definition redirect_probe : WorkboxPlugin :=
  {| cacheWillUpdate :=
       Some (caller_callback "redirectProbe"
               (fun response =>
                  {| status := status response;
                     redirected := redirected response;
                     headers := headers response;
                     body := if redirected response then "saw a redirected response"
                             else "saw a direct response" |})) |}.

Definition default_strategy : PrecacheStrategy :=
  constructor {| options_cacheName := "precache-v1"; options_plugins := None |}.

Definition custom_strategy : PrecacheStrategy :=
  constructor {| options_cacheName := "precache-v1"; options_plugins := Some [accept_all] |}.

Definition probing_strategy : PrecacheStrategy :=
  constructor {| options_cacheName := "precache-v1"; options_plugins := Some [redirect_probe] |}.



Definition install_event : option ExtendableEvent := Some {| type := "install" |}.
Definition fetch_event : option ExtendableEvent := Some {| type := "fetch" |}.

Definition params_with (flag : JsValue) : option HandlerParams :=
  Some {| fallbackToNetwork := flag; cacheKey := JsString "/app.js?__WB_REVISION__=1" |}.

(** ** Basic facts *)

Lemma strict_equals_false (v : JsValue) :
  strict_equals v (JsBoolean false) = true <-> v = JsBoolean false.
Proof.
  destruct v as [| |b|n|t]; simpl; try (split; [discriminate | discriminate]).
  destruct b; simpl; split; intros H; try discriminate; reflexivity.
Qed.

(** The guard of line 51 holds exactly when a parameters object is present
    and its [fallbackToNetwork] is the boolean [false]. *)
Lemma fallback_disabled_iff {W} (handler : StrategyHandler W) :
  fallback_disabled handler = true <->
  exists ps, params handler = Some ps /\ fallbackToNetwork ps = JsBoolean false.
Proof.
  unfold fallback_disabled. destruct (params handler) as [ps|].
  - rewrite strict_equals_false. split.
    + intros H. exists ps. split; [reflexivity | exact H].
    + intros (ps' & Heq & H). injection Heq as ->. exact H.
  - split; [discriminate | intros (ps' & Heq & _); discriminate].
Qed.

Lemma fetches_app (xs ys : list Call) : fetches (xs ++ ys) = fetches xs ++ fetches ys.
Proof. unfold fetches. apply List.filter_app. Qed.

Lemma lookups_app (xs ys : list Call) : lookups (xs ++ ys) = lookups xs ++ lookups ys.
Proof. unfold lookups. apply List.filter_app. Qed.

Ltac run_strategy :=
  unfold _handleFetch, _handleInstall, and_then, await, logger, resolve, throw,
    params_cacheKey, response_status; simpl.

Ltac flatten_calls := rewrite <- ?app_assoc; simpl.

(** ** The Request-Time Server *)

Section RequestTime.
Context {W : Type}.
Variables (NODE_ENV : string) (this : PrecacheStrategy) (request : Request).
Variable handler : StrategyHandler W.

(** A miss with the fallback disabled: the lookup is the only call made. *)
Lemma handleFetch_miss_disabled (s : Run W) (w' : W) :
  cacheMatch handler request (world s) = (inr None, w') ->
  fallback_disabled handler = true ->
  _handleFetch NODE_ENV this request handler s =
    (inl (WorkboxError "missing-precache-entry"
            [("cacheName", JsString (cacheName this)); ("url", JsString (url request))]),
     MkRun (calls s ++ [CacheMatchCall request]) w').
Proof.
  intros Hmiss Hoff. run_strategy. rewrite Hmiss. simpl. rewrite Hoff. reflexivity.
Qed.


(** X17: A miss with the fallback not disabled, where the diagnostics can be
    written (production build, or a parameters object is present): the
    result is whatever the one fetch settled with. *)
Lemma handleFetch_miss_fetch_result (s : Run W) (w1 w2 : W) (v : option Response) :
  cacheMatch handler request (world s) = (inr None, w1) ->
  fallback_disabled handler = false ->
  fetch handler request w1 = (inr v, w2) ->
  not_production NODE_ENV = false \/ is_Some (params handler) ->
  let out := _handleFetch NODE_ENV this request handler s in
  fst out = inr v /\ world (snd out) = w2.
Proof.
  intros Hmiss Hon Hfetch Hdiag. run_strategy. rewrite Hmiss. simpl. rewrite Hon.
  destruct (not_production NODE_ENV); simpl; rewrite Hfetch; simpl.
  - destruct Hdiag as [Hprod | [ps Hps]]; [discriminate |].
    rewrite Hps. simpl. split; reflexivity.
  - split; reflexivity.
Qed.

(** A hit, where the diagnostics can be written: the stored response is
    returned as it is, and no fetch is made. *)
Lemma handleFetch_hit (s : Run W) (w' : W) (stored : Response) :
  cacheMatch handler request (world s) = (inr (Some stored), w') ->
  not_production NODE_ENV = false \/ is_Some (params handler) ->
  let out := _handleFetch NODE_ENV this request handler s in
  fst out = inr (Some stored) /\ world (snd out) = w' /\
  fetches (calls (snd out)) = fetches (calls s).
Proof.
  intros Hhit Hdiag. run_strategy. rewrite Hhit. simpl.
  destruct (not_production NODE_ENV); simpl.
  - destruct Hdiag as [Hprod | [ps Hps]]; [discriminate |].
    rewrite Hps. simpl. repeat split.
    rewrite !fetches_app. simpl. rewrite !app_nil_r. reflexivity.
  - repeat split. rewrite fetches_app. simpl. apply app_nil_r.
Qed.

(** X16: No retries: whatever happens, a call makes exactly one cache lookup
    and at most one fetch. *)
Lemma handleFetch_no_retries (s : Run W) :
  let out := _handleFetch NODE_ENV this request handler s in
  exists new, calls (snd out) = calls s ++ new /\
              length (lookups new) = 1 /\ length (fetches new) <= 1.
Proof.
  run_strategy.
  destruct (cacheMatch handler request (world s)) as [[reason|[stored|]] w1]; simpl.
  - eexists; split; [reflexivity | split; simpl; lia].
  - destruct (not_production NODE_ENV); simpl;
      try destruct (params handler) as [ps|]; simpl;
      (eexists; split; [flatten_calls; reflexivity | split; simpl; lia]).
  - destruct (fallback_disabled handler); simpl.
    + eexists; split; [reflexivity | split; simpl; lia].
    + destruct (not_production NODE_ENV); simpl;
        destruct (fetch handler request w1) as [[reason|v] w2]; simpl;
        try destruct (params handler) as [ps|]; simpl;
        (eexists; split; [flatten_calls; reflexivity | split; simpl; lia]).
Qed.

(** C3: a request-time call whose cache lookup misses and whose
    parameters explicitly disable the network fallback fails with the
    missing-entry error ([missing-precache-entry]) carrying the cache name
    and the request URL; the lookup is the only collaborator call, so no
    network fetch is made. *)
Theorem C3_missing_entry_when_fallback_disabled
    (s : Run W) (w' : W) (ps : HandlerParams) :
  cacheMatch handler request (world s) = (inr None, w') ->
  params handler = Some ps ->
  fallbackToNetwork ps = JsBoolean false ->
  let out := _handleFetch NODE_ENV this request handler s in
  out = (inl (WorkboxError "missing-precache-entry"
                [("cacheName", JsString (cacheName this));
                 ("url", JsString (url request))]),
         MkRun (calls s ++ [CacheMatchCall request]) w') /\
  fetches (calls (snd out)) = fetches (calls s).
Proof.
  intros Hmiss Hps Hflag out.
  assert (Hout : out = (inl (WorkboxError "missing-precache-entry"
                [("cacheName", JsString (cacheName this));
                 ("url", JsString (url request))]),
         MkRun (calls s ++ [CacheMatchCall request]) w')).
  { apply handleFetch_miss_disabled; [exact Hmiss |].
    apply fallback_disabled_iff. exists ps. split; assumption. }
  split; [exact Hout |].
  rewrite Hout. simpl. rewrite fetches_app. simpl. apply app_nil_r.
Qed.


End RequestTime.

Lemma C3_missing_entry_when_fallback_disabled_witness :
  let handler :=
    spec_handler (network_answering ok_response) default_strategy fetch_event
      (params_with (JsBoolean false)) in
  let out := _handleFetch "production" default_strategy app_js handler (start empty_world) in
  out = (inl (WorkboxError "missing-precache-entry"
                [("cacheName", JsString "precache-v1"); ("url", JsString "/app.js")]),
         MkRun ([] ++ [CacheMatchCall app_js]) empty_world) /\
  fetches (calls (snd out)) = fetches [].
Proof.
  apply (C3_missing_entry_when_fallback_disabled "production" default_strategy app_js
           (spec_handler (network_answering ok_response) default_strategy fetch_event
              (params_with (JsBoolean false)))
           (start empty_world) empty_world
           {| fallbackToNetwork := JsBoolean false;
              cacheKey := JsString "/app.js?__WB_REVISION__=1" |});
    reflexivity.
Defined.


(** C6, at the input where the code departs from it: a development build,
    a handler without a parameters object, and the request in the cache
    store.  The stored response is found and no fetch is made, but the
    diagnostics read [handler.params.cacheKey] (line 75) and the call ends
    in a [TypeError] instead of returning the stored response. *)
Theorem C6_hit_without_params_in_development :
  let handler :=
    spec_handler (network_answering ok_response) default_strategy fetch_event None in
  let out := _handleFetch "development" default_strategy app_js handler (start cached_world) in
  store cached_world !! url app_js = Some ok_response /\
  fst out = inl (TypeError "Cannot read properties of undefined (reading 'cacheKey')") /\
  fetches (calls (snd out)) = [].
Proof. vm_compute. repeat split. Qed.

(** C7, at the input where the code departs from it: a development build,
    a handler without a parameters object (so the fallback is not
    disabled), and the request absent from the cache store.  One fetch is
    made, but the diagnostics read [handler.params.cacheKey] (line 75) and
    the call ends in a [TypeError] instead of returning the fetched
    response. *)
Theorem C7_miss_without_params_in_development :
  let handler :=
    spec_handler (network_answering ok_response) default_strategy fetch_event None in
  let out := _handleFetch "development" default_strategy app_js handler (start empty_world) in
  store empty_world !! url app_js = None /\
  fallback_disabled handler = false /\
  fst out = inl (TypeError "Cannot read properties of undefined (reading 'cacheKey')") /\
  fetches (calls (snd out)) = [FetchCall app_js] /\
  fetched (world (snd out)) = ["/app.js"].
Proof. vm_compute. repeat split. Qed.

(** ** The Custom-Logic Detector *)

Lemma usesCustomCacheableResponseLogic_iff (this : PrecacheStrategy) :
  _usesCustomCacheableResponseLogic this = true <->
  exists plugin cb, In plugin (plugins this) /\ cacheWillUpdate plugin = Some cb /\
                    not_copyRedirectedResponses cb = true.
Proof.
  unfold _usesCustomCacheableResponseLogic.
  induction (plugins this) as [|p rest IH]; simpl.
  - split; [discriminate | intros (q & cb & [] & _)].
  - destruct (cacheWillUpdate p) as [cb|] eqn:Hp.
    + destruct (not_copyRedirectedResponses cb) eqn:Hcb.
      * split; [intros _ | reflexivity]. exists p, cb. auto.
      * rewrite IH. split.
        -- intros (q & cb' & Hin & Hq & Hcb'). exists q, cb'. auto.
        -- intros (q & cb' & [<- | Hin] & Hq & Hcb').
           ++ congruence.
           ++ exists q, cb'. auto.
    + rewrite IH. split.
      * intros (q & cb' & Hin & Hq & Hcb'). exists q, cb'. auto.
      * intros (q & cb' & [<- | Hin] & Hq & Hcb').
        -- congruence.
        -- exists q, cb'. auto.
Qed.

(** ** The Redirect Normalizer and the transform chain *)

Lemma copyRedirectedResponses_idempotent (response : Response) :
  copyRedirectedResponses (copyRedirectedResponses response) =
  copyRedirectedResponses response.
Proof.
  unfold copyRedirectedResponses.
  destruct (redirected response) eqn:H; simpl; [reflexivity | rewrite H; reflexivity].
Qed.

Lemma copyRedirectedResponses_status (response : Response) :
  status (copyRedirectedResponses response) = status response.
Proof. unfold copyRedirectedResponses. destruct (redirected response); reflexivity. Qed.

(** The callbacks evaluated are those of the bundles, in registration
    order, whatever the response. *)
Lemma run_cacheWillUpdate_order (ps : list WorkboxPlugin) (response : Response) :
  snd (run_cacheWillUpdate ps response) = omap cacheWillUpdate ps.
Proof.
  revert response. induction ps as [|p rest IH]; intros response; simpl; [reflexivity |].
  destruct (cacheWillUpdate p) as [cb|]; [| apply IH].
  specialize (IH (call_cacheWillUpdate cb response)).
  destruct (run_cacheWillUpdate rest (call_cacheWillUpdate cb response)) as [r order].
  simpl in *. rewrite IH. reflexivity.
Qed.

(** Without a caller-supplied transform the chain can only normalize. *)
Lemma run_cacheWillUpdate_default (this : PrecacheStrategy) (response : Response) :
  _usesCustomCacheableResponseLogic this = false ->
  let stored := fst (run_cacheWillUpdate (plugins this) response) in
  stored = response \/ stored = copyRedirectedResponses response.
Proof.
  unfold _usesCustomCacheableResponseLogic.
  revert response. induction (plugins this) as [|p rest IH]; intros response H; simpl.
  - left. reflexivity.
  - simpl in H. destruct (cacheWillUpdate p) as [cb|]; [| apply IH; exact H].
    destruct cb as [|name f]; simpl in H; [| discriminate].
    specialize (IH (copyRedirectedResponses response) H). simpl in *.
    destruct (run_cacheWillUpdate rest (copyRedirectedResponses response)) as [r order].
    simpl in *. right.
    destruct IH as [-> | ->]; [reflexivity | apply copyRedirectedResponses_idempotent].
Qed.

Lemma redirect_occurrences_app (ps qs : list WorkboxPlugin) :
  redirect_occurrences (ps ++ qs) = redirect_occurrences ps + redirect_occurrences qs.
Proof. unfold redirect_occurrences. rewrite List.filter_app. apply length_app. Qed.

Lemma redirect_occurrences_none (ps : list WorkboxPlugin) :
  Forall (fun p => is_redirect_plugin p = false) ps -> redirect_occurrences ps = 0.
Proof.
  unfold redirect_occurrences. induction 1 as [|p rest Hp _ IH]; simpl; [reflexivity |].
  rewrite Hp. exact IH.
Qed.

(** A successful fetch-and-store commits what the chain returns. *)
Lemma fetchAndStore_commits (network : string -> option Response)
    (this : PrecacheStrategy) (request : Request) (w : World) (response : Response) :
  network (url request) = Some response ->
  CacheStore_fetchAndStore network this request w =
    (inr (Some response),
     {| store := <[url request := fst (run_cacheWillUpdate (plugins this) response)]> (store w);
        fetched := fetched w ++ [url request];
        commits := commits w ++
          [{| commit_url := url request;
              commit_response := fst (run_cacheWillUpdate (plugins this) response);
              commit_order := snd (run_cacheWillUpdate (plugins this) response) |}] |}).
Proof.
  intros Hnet. unfold CacheStore_fetchAndStore, NetworkFetcher_fetch. rewrite Hnet.
  destruct (run_cacheWillUpdate (plugins this) response) as [r order]. reflexivity.
Qed.

(** C8: the redirect-normalizing transform, on a response whose redirect
    flag is set, returns a response with the flag cleared and the same
    status, headers and body; on a response whose flag is not set it
    returns the response itself. *)
Theorem C8_redirect_normalizer (response : Response) :
  (redirected response = true ->
     redirected (copyRedirectedResponses response) = false /\
     status (copyRedirectedResponses response) = status response /\
     headers (copyRedirectedResponses response) = headers response /\
     body (copyRedirectedResponses response) = body response) /\
  (redirected response = false -> copyRedirectedResponses response = response).
Proof.
  unfold copyRedirectedResponses. split; intros ->; simpl; repeat split.
Qed.

Lemma C8_redirect_normalizer_witness :
  (redirected (copyRedirectedResponses redirected_response) = false /\
   status (copyRedirectedResponses redirected_response) = 200%Z /\
   headers (copyRedirectedResponses redirected_response) =
     [("content-type", "text/javascript")] /\
   body (copyRedirectedResponses redirected_response) = "console.log(1)") /\
  copyRedirectedResponses ok_response = ok_response.
Proof.
  split.
  - apply (proj1 (C8_redirect_normalizer redirected_response)). reflexivity.
  - apply (proj2 (C8_redirect_normalizer ok_response)). reflexivity.
Defined.

(** ** The Install-Time Populator *)

Section InstallTime.
Context {W : Type}.
Variables (this : PrecacheStrategy) (request : Request).
Variable handler : StrategyHandler W.

(** The status check fires: the error is thrown after the fetch-and-store
    call, in the world that call left behind. *)
Lemma handleInstall_unsafe_status (s : Run W) (w' : W) (response : Response) :
  fetchAndCachePut handler request (world s) = (inr (Some response), w') ->
  (400 <= status response)%Z ->
  _usesCustomCacheableResponseLogic this = false ->
  _handleInstall this request handler s =
    (inl (WorkboxError "bad-precaching-response"
            [("url", JsString (url request)); ("status", JsNumber (status response))]),
     MkRun (calls s ++ [FetchAndCachePutCall request]) w').
Proof.
  intros Hput Hstatus Hdefault. run_strategy. rewrite Hput. simpl.
  rewrite Hdefault. replace (status response >=? 400)%Z with true by lia.
  reflexivity.
Qed.

(** No response at all: building the error reads [response.status]
    (line 109) of [undefined]. *)
Lemma handleInstall_no_response (s : Run W) (w' : W) :
  fetchAndCachePut handler request (world s) = (inr None, w') ->
  _handleInstall this request handler s =
    (inl (TypeError "Cannot read properties of undefined (reading 'status')"),
     MkRun (calls s ++ [FetchAndCachePutCall request]) w').
Proof. intros Hput. run_strategy. rewrite Hput. reflexivity. Qed.

(** X4: A rejection of the collaborator propagates unmodified. *)
Lemma handleInstall_rejected (s : Run W) (w' : W) (reason : string) :
  fetchAndCachePut handler request (world s) = (inl reason, w') ->
  _handleInstall this request handler s =
    (inl (Rejected reason), MkRun (calls s ++ [FetchAndCachePutCall request]) w').
Proof. intros Hput. run_strategy. rewrite Hput. reflexivity. Qed.

(** C5: when the fetched response has a status of 400 or more and some
    plugin carries a will-update transform other than the built-in
    redirect normalizer, the detector answers true, the status check is
    bypassed, and the Populator returns the response with what the
    fetch-and-store call committed left in place. *)
Theorem C5_custom_transform_bypasses_status_check
    (s : Run W) (w' : W) (response : Response)
    (plugin : WorkboxPlugin) (cb : CacheWillUpdate) :
  fetchAndCachePut handler request (world s) = (inr (Some response), w') ->
  (400 <= status response)%Z ->
  In plugin (plugins this) ->
  cacheWillUpdate plugin = Some cb ->
  not_copyRedirectedResponses cb = true ->
  _usesCustomCacheableResponseLogic this = true /\
  _handleInstall this request handler s =
    (inr (Some response), MkRun (calls s ++ [FetchAndCachePutCall request]) w').
Proof.
  intros Hput Hstatus Hin Hplugin Hcb.
  assert (Hcustom : _usesCustomCacheableResponseLogic this = true).
  { apply usesCustomCacheableResponseLogic_iff. exists plugin, cb. auto. }
  split; [exact Hcustom |].
  run_strategy. rewrite Hput. simpl. rewrite Hcustom.
  rewrite andb_false_r. reflexivity.
Qed.

(** C10: a fetched response whose status is below 400, status 0 of an
    opaque response included, is safe to precache and is returned without
    error; this holds with no caller-supplied will-update transform (and
    with one as well, the detector is not consulted to reject). *)
Theorem C10_status_below_400_is_safe (s : Run W) (w' : W) (response : Response) :
  fetchAndCachePut handler request (world s) = (inr (Some response), w') ->
  (status response < 400)%Z ->
  _handleInstall this request handler s =
    (inr (Some response), MkRun (calls s ++ [FetchAndCachePutCall request]) w').
Proof.
  intros Hput Hstatus. run_strategy. rewrite Hput. simpl.
  replace (status response >=? 400)%Z with false by lia. reflexivity.
Qed.

End InstallTime.

Lemma C5_custom_transform_bypasses_status_check_witness :
  let handler :=
    spec_handler (network_answering not_found) custom_strategy install_event None in
  let out := _handleInstall custom_strategy app_js handler (start empty_world) in
  _usesCustomCacheableResponseLogic custom_strategy = true /\
  fst out = inr (Some not_found) /\
  store (world (snd out)) !! "/app.js" = Some not_found.
Proof.
  intros handler out.
  destruct (C5_custom_transform_bypasses_status_check custom_strategy app_js
              (spec_handler (network_answering not_found) custom_strategy install_event None)
              (start empty_world)
              (snd (CacheStore_fetchAndStore (network_answering not_found) custom_strategy
                      app_js empty_world))
              not_found accept_all
              (caller_callback "acceptAll" (fun response => response)))
    as [Hcustom Hrun].
  - reflexivity.
  - vm_compute. discriminate.
  - left. reflexivity.
  - reflexivity.
  - reflexivity.
  - unfold out, handler. rewrite Hrun. split; [exact Hcustom |]. split; reflexivity.
Defined.

Lemma C10_status_below_400_is_safe_witness :
  let handler :=
    spec_handler (network_answering opaque_response) default_strategy install_event None in
  let out := _handleInstall default_strategy app_js handler (start empty_world) in
  status opaque_response = 0%Z /\
  fst out = inr (Some opaque_response).
Proof.
  intros handler out. split; [reflexivity |].
  unfold out, handler.
  rewrite (C10_status_below_400_is_safe default_strategy app_js
             (spec_handler (network_answering opaque_response) default_strategy
                install_event None)
             (start empty_world)
             (snd (CacheStore_fetchAndStore (network_answering opaque_response)
                     default_strategy app_js empty_world))
             opaque_response eq_refl).
  - reflexivity.
  - vm_compute. reflexivity.
Defined.

(** The Dispatcher routes on the event kind alone. *)
Lemma handle_install {W} (NODE_ENV : string) (this : PrecacheStrategy)
    (request : Request) (handler : StrategyHandler W) :
  is_install handler = true ->
  _handle NODE_ENV this request handler = _handleInstall this request handler.
Proof. intros H. unfold _handle. rewrite H. reflexivity. Qed.

Lemma handle_other {W} (NODE_ENV : string) (this : PrecacheStrategy)
    (request : Request) (handler : StrategyHandler W) :
  is_install handler = false ->
  _handle NODE_ENV this request handler = _handleFetch NODE_ENV this request handler.
Proof. intros H. unfold _handle. rewrite H. reflexivity. Qed.

(** C1, at the input where the code departs from it: the fetch answers
    404 and only the built-in transform is installed.  The Populator fails
    with the bad-response error, as it must, but fetch-and-store (line 91)
    ran before the check (lines 99-110) found the response not safe to
    precache: the store, empty before the call, now holds the 404 response
    under the request URL, and one commit was made instead of none. *)
Lemma C1_store_changed_by_failed_install :
  let handler :=
    spec_handler (network_answering not_found) default_strategy install_event None in
  let out := _handleInstall default_strategy app_js handler (start empty_world) in
  (400 <= status not_found)%Z /\
  _usesCustomCacheableResponseLogic default_strategy = false /\
  is_bad_response (fst out) = true /\
  store empty_world !! "/app.js" = None /\
  store (world (snd out)) !! "/app.js" = Some not_found /\
  length (commits (world (snd out))) = 1 /\
  store (world (snd out)) <> store empty_world.
Proof.
  intros handler out.
  assert (Hafter : store (world (snd out)) !! "/app.js" = Some not_found)
    by (vm_compute; reflexivity).
  repeat split; try exact Hafter; try (vm_compute; reflexivity).
  - vm_compute. discriminate.
  - intros Heq. rewrite Heq in Hafter. vm_compute in Hafter. discriminate.
Qed.

(** What the code does on every such input, over the collaborators modelled
    above: when the fetched response has a status of 400 or more and no
    caller-supplied will-update transform is installed, the Populator
    fails with the bad-response error ([bad-precaching-response]) carrying
    the request URL and the status, but only after the fetch-and-store
    call has committed: the store holds a response of that status under
    the request URL. *)
Theorem bad_response_thrown_after_the_commit
    (network : string -> option Response) (this : PrecacheStrategy) (request : Request)
    (ev : option ExtendableEvent) (ps : option HandlerParams)
    (s : Run World) (response : Response) :
  network (url request) = Some response ->
  (400 <= status response)%Z ->
  _usesCustomCacheableResponseLogic this = false ->
  let out := _handleInstall this request (spec_handler network this ev ps) s in
  fst out = inl (WorkboxError "bad-precaching-response"
                   [("url", JsString (url request));
                    ("status", JsNumber (status response))]) /\
  calls (snd out) = calls s ++ [FetchAndCachePutCall request] /\
  exists stored : Response,
    status stored = status response /\
    store (world (snd out)) = <[url request := stored]> (store (world s)) /\
    commits (world (snd out)) =
      commits (world s) ++
        [{| commit_url := url request;
            commit_response := stored;
            commit_order := omap cacheWillUpdate (plugins this) |}].
Proof.
  intros Hnet Hstatus Hdefault out. subst out.
  rewrite (handleInstall_unsafe_status this request (spec_handler network this ev ps)
             s _ response (fetchAndStore_commits network this request (world s) response Hnet)
             Hstatus Hdefault).
  simpl. split; [reflexivity |]. split; [reflexivity |].
  exists (fst (run_cacheWillUpdate (plugins this) response)). split.
  - destruct (run_cacheWillUpdate_default this response Hdefault) as [-> | ->];
      [reflexivity | apply copyRedirectedResponses_status].
  - split; [reflexivity |]. rewrite run_cacheWillUpdate_order. reflexivity.
Qed.

Lemma bad_response_thrown_after_the_commit_witness :
  let handler :=
    spec_handler (network_answering not_found) default_strategy install_event None in
  let out := _handleInstall default_strategy app_js handler (start empty_world) in
  fst out = inl (WorkboxError "bad-precaching-response"
                   [("url", JsString "/app.js"); ("status", JsNumber 404)]) /\
  calls (snd out) = [] ++ [FetchAndCachePutCall app_js] /\
  exists stored : Response,
    status stored = 404%Z /\
    store (world (snd out)) = <["/app.js" := stored]> (store empty_world) /\
    commits (world (snd out)) =
      [] ++ [{| commit_url := "/app.js";
                commit_response := stored;
                commit_order := omap cacheWillUpdate (plugins default_strategy) |}].
Proof.
  apply (bad_response_thrown_after_the_commit (network_answering not_found) default_strategy
           app_js install_event None (start empty_world) not_found).
  - reflexivity.
  - vm_compute. discriminate.
  - reflexivity.
Defined.

(** C4, at the input where the code departs from it: the fetch-and-store
    collaborator resolves with no response.  The response is deemed unsafe,
    but building the error reads [response.status] (line 109) of
    [undefined]: the call ends in a [TypeError], not in the bad-response
    error with an absence marker. *)
Theorem C4_no_response_ends_in_TypeError :
  let handler := constant_handler install_event None None in
  let out := _handleInstall default_strategy app_js handler (start tt) in
  fetchAndCachePut handler app_js tt = (inr None, tt) /\
  fst out = inl (TypeError "Cannot read properties of undefined (reading 'status')") /\
  is_bad_response (fst out) = false.
Proof.
  split; [reflexivity |].
  rewrite (handleInstall_no_response default_strategy app_js
             (constant_handler install_event None None) (start tt) tt eq_refl).
  split; reflexivity.
Qed.

(** ** The hook set of a strategy instance *)

Lemma caller_callbacks (ps : list WorkboxPlugin) :
  Forall (fun p => is_redirect_plugin p = false) ps ->
  Forall (fun cb => not_copyRedirectedResponses cb = true) (omap cacheWillUpdate ps).
Proof.
  induction 1 as [|p rest Hp _ IH]; simpl; [constructor |].
  unfold is_redirect_plugin in Hp.
  destruct (cacheWillUpdate p) as [cb|]; [| exact IH].
  constructor; [| exact IH].
  destruct (not_copyRedirectedResponses cb); [reflexivity | discriminate].
Qed.

(** The premise on the caller's sequence is needed: a sequence taken from
    an instance that was already built holds the transform, and a strategy
    built from it holds it twice. *)
Lemma reused_hook_sequence_registers_twice :
  redirect_occurrences
    (plugins (constructor {| options_cacheName := "precache-v2";
                             options_plugins := Some (plugins default_strategy) |})) = 2.
Proof. reflexivity. Qed.

(** The hook set right after the construction: when the caller's sequence
    does not already hold the redirect-normalizing transform, the hook set
    is the caller's sequence followed by that transform, which is then
    present once and, in any store operation, evaluated last. *)
Theorem constructed_hook_set_ends_with_redirect_plugin (options : StrategyOptions) :
  let callers := default [] (options_plugins options) in
  let this := constructor options in
  Forall (fun p => is_redirect_plugin p = false) callers ->
  plugins this = callers ++ [redirect_plugin] /\
  redirect_occurrences (plugins this) = 1 /\
  Forall (fun cb => not_copyRedirectedResponses cb = true) (omap cacheWillUpdate callers) /\
  (forall response : Response,
     evaluation_order this response =
       omap cacheWillUpdate callers ++ [copyRedirectedResponses_ref]) /\
  (forall (network : string -> option Response) (request : Request) (w : World)
          (response : Response),
     network (url request) = Some response ->
     exists stored : Response,
       commits (snd (CacheStore_fetchAndStore network this request w)) =
         commits w ++
           [{| commit_url := url request;
               commit_response := stored;
               commit_order := omap cacheWillUpdate callers ++ [copyRedirectedResponses_ref] |}]).
Proof.
  intros callers this Hcallers.
  assert (Hplugins : plugins this = callers ++ [redirect_plugin]) by reflexivity.
  assert (Horder : forall response : Response,
             evaluation_order this response =
               omap cacheWillUpdate callers ++ [copyRedirectedResponses_ref]).
  { intros response. unfold evaluation_order.
    rewrite run_cacheWillUpdate_order, Hplugins, omap_app. reflexivity. }
  split; [exact Hplugins |]. split.
  - rewrite Hplugins, redirect_occurrences_app, (redirect_occurrences_none callers Hcallers).
    reflexivity.
  - split; [apply caller_callbacks; exact Hcallers |]. split; [exact Horder |].
    intros network request w response Hnet.
    exists (fst (run_cacheWillUpdate (plugins this) response)).
    rewrite (fetchAndStore_commits network this request w response Hnet).
    cbn [snd commits]. rewrite run_cacheWillUpdate_order, Hplugins, omap_app.
    reflexivity.
Qed.

Lemma constructed_hook_set_ends_with_redirect_plugin_witness :
  plugins custom_strategy = [accept_all] ++ [redirect_plugin] /\
  redirect_occurrences (plugins custom_strategy) = 1 /\
  Forall (fun cb => not_copyRedirectedResponses cb = true)
    (omap cacheWillUpdate [accept_all]) /\
  (forall response : Response,
     evaluation_order custom_strategy response =
       omap cacheWillUpdate [accept_all] ++ [copyRedirectedResponses_ref]) /\
  (forall (network : string -> option Response) (request : Request) (w : World)
          (response : Response),
     network (url request) = Some response ->
     exists stored : Response,
       commits (snd (CacheStore_fetchAndStore network custom_strategy request w)) =
         commits w ++
           [{| commit_url := url request;
               commit_response := stored;
               commit_order :=
                 omap cacheWillUpdate [accept_all] ++ [copyRedirectedResponses_ref] |}]).
Proof.
  apply (constructed_hook_set_ends_with_redirect_plugin
           {| options_cacheName := "precache-v1"; options_plugins := Some [accept_all] |}).
  constructor; [reflexivity | constructor].
Defined.

(** ** Further properties of the strategy *)

Lemma is_install_iff {W} (handler : StrategyHandler W) :
  is_install handler = true <-> exists ev, event handler = Some ev /\ type ev = "install".
Proof.
  unfold is_install. destruct (event handler) as [ev|].
  - rewrite bool_decide_eq_true. split.
    + intros H. exists ev. auto.
    + intros (ev' & Heq & H). injection Heq as ->. exact H.
  - split; [discriminate | intros (ev' & Heq & _); discriminate].
Qed.

Lemma collaborator_calls_app (xs ys : list Call) :
  collaborator_calls (xs ++ ys) = collaborator_calls xs ++ collaborator_calls ys.
Proof. unfold collaborator_calls. apply List.filter_app. Qed.

(** X1: The Dispatcher and the Populator together: on an install event the
    strategy, whatever the outcome, makes one collaborator call, the
    fetch-and-store of the request, writes no diagnostics, and leaves the
    world as that call left it. *)
Theorem install_event_makes_one_fetchAndCachePut_call {W} (NODE_ENV : string)
    (this : PrecacheStrategy) (request : Request) (handler : StrategyHandler W)
    (ev : ExtendableEvent) (s : Run W) :
  event handler = Some ev ->
  type ev = "install" ->
  let out := _handle NODE_ENV this request handler s in
  calls (snd out) = calls s ++ [FetchAndCachePutCall request] /\
  world (snd out) = snd (fetchAndCachePut handler request (world s)).
Proof.
  intros Hev Htype out. subst out.
  rewrite handle_install by (apply is_install_iff; exists ev; auto).
  run_strategy.
  destruct (fetchAndCachePut handler request (world s)) as [[reason|[response|]] w']; simpl;
    try (split; reflexivity).
  destruct ((status response >=? 400)%Z && negb (_usesCustomCacheableResponseLogic this));
    simpl; split; reflexivity.
Qed.

Lemma install_event_makes_one_fetchAndCachePut_call_witness :
  let handler :=
    spec_handler (network_answering not_found) default_strategy install_event None in
  let out := _handle "development" default_strategy app_js handler (start empty_world) in
  calls (snd out) = [] ++ [FetchAndCachePutCall app_js] /\
  world (snd out) = snd (fetchAndCachePut handler app_js empty_world).
Proof.
  apply (install_event_makes_one_fetchAndCachePut_call "development" default_strategy app_js
           (spec_handler (network_answering not_found) default_strategy install_event None)
           {| type := "install" |} (start empty_world)); reflexivity.
Defined.

(** The calls of the Request-Time Server, in every case: one cache lookup
    first, at most one fetch, never a fetch-and-store. *)
Lemma handleFetch_calls {W} (NODE_ENV : string) (this : PrecacheStrategy)
    (request : Request) (handler : StrategyHandler W) (s : Run W) :
  let out := _handleFetch NODE_ENV this request handler s in
  exists rest, calls (snd out) = calls s ++ CacheMatchCall request :: rest /\
               lookups rest = [] /\ stores rest = [] /\
               (not_production NODE_ENV = false -> logged rest = []).
Proof.
  run_strategy.
  destruct (cacheMatch handler request (world s)) as [[reason|[stored|]] w1]; simpl.
  - exists []. repeat split.
  - destruct (not_production NODE_ENV); simpl;
      try destruct (params handler) as [ps|]; simpl;
      (eexists; split; [flatten_calls; reflexivity | repeat split; discriminate]).
  - destruct (fallback_disabled handler); simpl.
    + exists []. repeat split.
    + destruct (not_production NODE_ENV); simpl;
        destruct (fetch handler request w1) as [[reason|v] w2]; simpl;
        try destruct (params handler) as [ps|]; simpl;
        (eexists; split; [flatten_calls; reflexivity | repeat split; discriminate]).
Qed.

(** X2: The Dispatcher and the Server together: on any event other than an
    install event, and without an event, the strategy never calls
    fetch-and-store: serving a request, falling back to the network
    included, starts with one cache lookup and asks for nothing to be
    written to the cache. *)
Theorem other_events_never_call_fetchAndCachePut {W} (NODE_ENV : string)
    (this : PrecacheStrategy) (request : Request) (handler : StrategyHandler W)
    (s : Run W) :
  (forall ev, event handler = Some ev -> type ev <> "install") ->
  let out := _handle NODE_ENV this request handler s in
  exists rest, calls (snd out) = calls s ++ CacheMatchCall request :: rest /\
               lookups rest = [] /\ stores rest = [].
Proof.
  intros Hother out. subst out.
  rewrite handle_other.
  - destruct (handleFetch_calls NODE_ENV this request handler s) as (rest & H1 & H2 & H3 & _).
    exists rest. auto.
  - destruct (is_install handler) eqn:Hinstall; [| reflexivity].
    apply is_install_iff in Hinstall as (ev & Hev & Htype).
    exfalso. exact (Hother ev Hev Htype).
Qed.

Lemma other_events_never_call_fetchAndCachePut_witness :
  let handler :=
    spec_handler (network_answering ok_response) default_strategy fetch_event
      (params_with JsUndefined) in
  let out := _handle "development" default_strategy app_js handler (start empty_world) in
  exists rest, calls (snd out) = [] ++ CacheMatchCall app_js :: rest /\
               lookups rest = [] /\ stores rest = [].
Proof.
  apply (other_events_never_call_fetchAndCachePut "development" default_strategy app_js
           (spec_handler (network_answering ok_response) default_strategy fetch_event
              (params_with JsUndefined))
           (start empty_world)).
  intros ev Hev. injection Hev as <-. discriminate.
Defined.

(** X3: The Populator resolves exactly when fetch-and-store yielded a response
    that passes the check: its status is below 400, or a caller-supplied
    will-update transform is installed.  What it resolves with is that very
    response; it never resolves with no response. *)
Theorem handleInstall_resolves_iff {W} (this : PrecacheStrategy) (request : Request)
    (handler : StrategyHandler W) (s : Run W) (v : option Response) :
  fst (_handleInstall this request handler s) = inr v <->
  exists response,
    fst (fetchAndCachePut handler request (world s)) = inr (Some response) /\
    v = Some response /\
    ((status response < 400)%Z \/ _usesCustomCacheableResponseLogic this = true).
Proof.
  run_strategy.
  destruct (fetchAndCachePut handler request (world s)) as [[reason|[response|]] w']; simpl.
  - split; [discriminate | intros (r & Hr & _); discriminate].
  - destruct (Z.geb_spec (status response) 400) as [Hge | Hlt]; simpl.
    + destruct (_usesCustomCacheableResponseLogic this) eqn:Hcustom; simpl.
      * split.
        -- intros Hv. injection Hv as <-. exists response. auto.
        -- intros (r & Hr & -> & _). injection Hr as ->. reflexivity.
      * split; [discriminate |].
        intros (r & Hr & _ & [Hlt | Hyes]); [| discriminate].
        injection Hr as ->. lia.
    + split.
      * intros Hv. injection Hv as <-. exists response. auto.
      * intros (r & Hr & -> & _). injection Hr as ->. reflexivity.
  - split; [discriminate | intros (r & Hr & _); discriminate].
Qed.

(** A rejection of fetch-and-store is what an install ends with, as it is:
    it is not turned into the bad-response error. *)
Lemma handleInstall_rejected_witness :
  _handleInstall default_strategy app_js (rejecting_handler install_event None "quota exceeded")
    (start tt) =
  (inl (Rejected "quota exceeded"), MkRun ([] ++ [FetchAndCachePutCall app_js]) tt).
Proof.
  apply (handleInstall_rejected default_strategy app_js
           (rejecting_handler install_event None "quota exceeded") (start tt) tt
           "quota exceeded").
  reflexivity.
Defined.

(** X5: A rejected cache lookup is what the call ends with, as it is: no fetch
    follows, fallback or not, and no diagnostics are written, in any
    build. *)
Theorem handleFetch_lookup_rejected {W} (NODE_ENV : string) (this : PrecacheStrategy)
    (request : Request) (handler : StrategyHandler W) (s : Run W)
    (reason : string) (w' : W) :
  cacheMatch handler request (world s) = (inl reason, w') ->
  _handleFetch NODE_ENV this request handler s =
    (inl (Rejected reason), MkRun (calls s ++ [CacheMatchCall request]) w').
Proof. intros Hlookup. run_strategy. rewrite Hlookup. reflexivity. Qed.

Lemma handleFetch_lookup_rejected_witness :
  _handleFetch "development" default_strategy app_js
    (rejecting_handler fetch_event None "cache unavailable") (start tt) =
  (inl (Rejected "cache unavailable"), MkRun ([] ++ [CacheMatchCall app_js]) tt).
Proof.
  apply (handleFetch_lookup_rejected "development" default_strategy app_js
           (rejecting_handler fetch_event None "cache unavailable") (start tt)
           "cache unavailable" tt).
  reflexivity.
Defined.

(** X6: A rejected fallback fetch is what the call ends with, as it is, in any
    build and with or without a parameters object: the collaborator calls
    are the lookup and the one fetch, and no retry is made. *)
Theorem handleFetch_fetch_rejected {W} (NODE_ENV : string) (this : PrecacheStrategy)
    (request : Request) (handler : StrategyHandler W) (s : Run W)
    (reason : string) (w1 w2 : W) :
  cacheMatch handler request (world s) = (inr None, w1) ->
  fallback_disabled handler = false ->
  fetch handler request w1 = (inl reason, w2) ->
  let out := _handleFetch NODE_ENV this request handler s in
  fst out = inl (Rejected reason) /\ world (snd out) = w2 /\
  collaborator_calls (calls (snd out)) =
    collaborator_calls (calls s) ++ [CacheMatchCall request; FetchCall request].
Proof.
  intros Hmiss Hon Hfetch. run_strategy. rewrite Hmiss. simpl. rewrite Hon.
  destruct (not_production NODE_ENV); simpl; rewrite Hfetch; simpl;
    (split; [reflexivity | split; [reflexivity |]]);
    rewrite !collaborator_calls_app; simpl; rewrite <- ?app_assoc; reflexivity.
Qed.

Lemma handleFetch_fetch_rejected_witness :
  let handler :=
    spec_handler (fun _ => None) default_strategy fetch_event None in
  let out := _handleFetch "development" default_strategy app_js handler (start empty_world) in
  fst out = inl (Rejected "network failure") /\
  world (snd out) = {| store := ∅; fetched := ["/app.js"]; commits := [] |} /\
  collaborator_calls (calls (snd out)) =
    collaborator_calls [] ++ [CacheMatchCall app_js; FetchCall app_js].
Proof.
  apply (handleFetch_fetch_rejected "development" default_strategy app_js
           (spec_handler (fun _ => None) default_strategy fetch_event None)
           (start empty_world) "network failure" empty_world
           {| store := ∅; fetched := ["/app.js"]; commits := [] |}); reflexivity.
Defined.

(** X7: The Server never invents a response: when it resolves, the value is the
    stored response of a cache hit, or, after a miss with the fallback not
    disabled, what the fetch resolved with. *)
Theorem handleFetch_resolves_with_cached_or_fetched {W} (NODE_ENV : string)
    (this : PrecacheStrategy) (request : Request) (handler : StrategyHandler W)
    (s : Run W) (v : option Response) :
  fst (_handleFetch NODE_ENV this request handler s) = inr v ->
  (exists stored w1,
     cacheMatch handler request (world s) = (inr (Some stored), w1) /\ v = Some stored) \/
  (exists w1 w2,
     cacheMatch handler request (world s) = (inr None, w1) /\
     fallback_disabled handler = false /\
     fetch handler request w1 = (inr v, w2)).
Proof.
  run_strategy.
  destruct (cacheMatch handler request (world s)) as [[reason|[stored|]] w1]; simpl.
  - discriminate.
  - intros Hv. left. exists stored, w1. split; [reflexivity |].
    destruct (not_production NODE_ENV); simpl in Hv;
      try destruct (params handler) as [ps|]; simpl in Hv; congruence.
  - destruct (fallback_disabled handler); simpl; [discriminate |].
    intros Hv. right. exists w1.
    destruct (not_production NODE_ENV); simpl in Hv;
      destruct (fetch handler request w1) as [[reason|v'] w2]; simpl in Hv;
      try destruct (params handler) as [ps|]; simpl in Hv;
      try discriminate; exists w2; repeat split; congruence.
Qed.

Lemma handleFetch_resolves_with_cached_or_fetched_witness :
  let handler :=
    spec_handler (network_answering ok_response) default_strategy fetch_event
      (params_with (JsBoolean true)) in
  (exists stored w1,
     cacheMatch handler app_js (world (start empty_world)) = (inr (Some stored), w1) /\
     Some ok_response = Some stored) \/
  (exists w1 w2,
     cacheMatch handler app_js (world (start empty_world)) = (inr None, w1) /\
     fallback_disabled handler = false /\
     fetch handler app_js w1 = (inr (Some ok_response), w2)).
Proof.
  apply (handleFetch_resolves_with_cached_or_fetched "development" default_strategy app_js
           (spec_handler (network_answering ok_response) default_strategy fetch_event
              (params_with (JsBoolean true)))
           (start empty_world) (Some ok_response)).
  reflexivity.
Defined.



(** X9: In a production build the strategy never calls the logger, on either
    path and whatever the outcome. *)
Theorem production_build_writes_no_diagnostics {W} (this : PrecacheStrategy)
    (request : Request) (handler : StrategyHandler W) (s : Run W) :
  let out := _handle "production" this request handler s in
  exists new, calls (snd out) = calls s ++ new /\ logged new = [].
Proof.
  unfold _handle. destruct (is_install handler).
  - run_strategy.
    destruct (fetchAndCachePut handler request (world s)) as [[reason|[response|]] w'];
      simpl; try (eexists; split; reflexivity).
    destruct ((status response >=? 400)%Z && negb (_usesCustomCacheableResponseLogic this));
      simpl; eexists; split; reflexivity.
  - destruct (handleFetch_calls "production" this request handler s)
      as (rest & Hcalls & _ & _ & Hquiet).
    exists (CacheMatchCall request :: rest). split; [exact Hcalls |].
    unfold logged in *. simpl. apply Hquiet. reflexivity.
Qed.

(** X10: The diagnostics do not change what a call does when a parameters
    object is present: in any build the outcome, the world and the
    collaborator calls are those of the production build. *)
Theorem diagnostics_do_not_change_the_call {W} (NODE_ENV : string)
    (this : PrecacheStrategy) (request : Request) (handler : StrategyHandler W)
    (s : Run W) :
  is_Some (params handler) ->
  let dev := _handleFetch NODE_ENV this request handler s in
  let prod := _handleFetch "production" this request handler s in
  fst dev = fst prod /\
  world (snd dev) = world (snd prod) /\
  collaborator_calls (calls (snd dev)) = collaborator_calls (calls (snd prod)).
Proof.
  intros [ps Hps]. run_strategy. change (not_production "production") with false.
  destruct (cacheMatch handler request (world s)) as [[reason|[stored|]] w1]; simpl.
  - repeat split.
  - destruct (not_production NODE_ENV); simpl; [| repeat split].
    rewrite Hps. simpl. repeat split.
    rewrite !collaborator_calls_app. simpl. rewrite !app_nil_r. reflexivity.
  - destruct (fallback_disabled handler); simpl; [repeat split |].
    destruct (not_production NODE_ENV); simpl; [| repeat split].
    destruct (fetch handler request w1) as [[reason|v] w2]; simpl.
    + repeat split. rewrite !collaborator_calls_app. simpl. rewrite !app_nil_r. reflexivity.
    + rewrite Hps. simpl. repeat split.
      rewrite !collaborator_calls_app. simpl. rewrite !app_nil_r. reflexivity.
Qed.

Lemma diagnostics_do_not_change_the_call_witness :
  let handler :=
    spec_handler (network_answering ok_response) default_strategy fetch_event
      (params_with JsNull) in
  let dev := _handleFetch "development" default_strategy app_js handler (start empty_world) in
  let prod := _handleFetch "production" default_strategy app_js handler (start empty_world) in
  fst dev = fst prod /\
  world (snd dev) = world (snd prod) /\
  collaborator_calls (calls (snd dev)) = collaborator_calls (calls (snd prod)).
Proof.
  apply (diagnostics_do_not_change_the_call "development" default_strategy app_js
           (spec_handler (network_answering ok_response) default_strategy fetch_event
              (params_with JsNull))
           (start empty_world)).
  eexists. reflexivity.
Defined.

(** X11: In a non-production build a warning is written exactly when the call
    falls back to the network: after a miss with the fallback not disabled,
    and then right between the lookup and the fetch. *)
Theorem warning_exactly_on_fallback {W} (NODE_ENV : string) (this : PrecacheStrategy)
    (request : Request) (handler : StrategyHandler W) (s : Run W) :
  not_production NODE_ENV = true ->
  let out := _handleFetch NODE_ENV this request handler s in
  exists new, calls (snd out) = calls s ++ new /\
    ((exists w1, cacheMatch handler request (world s) = (inr None, w1)) /\
     fallback_disabled handler = false ->
     exists args rest,
       new = CacheMatchCall request :: LoggerCall "warn" args :: FetchCall request :: rest /\
       warnings rest = [] /\ fetches rest = []) /\
    (~ ((exists w1, cacheMatch handler request (world s) = (inr None, w1)) /\
        fallback_disabled handler = false) ->
     warnings new = [] /\ fetches new = []).
Proof.
  intros Hdev. run_strategy. rewrite Hdev.
  destruct (cacheMatch handler request (world s)) as [[reason|[stored|]] w1]; simpl.
  - eexists. split; [reflexivity |]. split.
    + intros [[w Hw] _]. discriminate.
    + intros _. split; reflexivity.
  - destruct (params handler) as [ps|]; simpl;
      (eexists; split; [flatten_calls; reflexivity |]; split;
       [intros [[w Hw] _]; discriminate | intros _; split; reflexivity]).
  - destruct (fallback_disabled handler); simpl.
    + eexists. split; [reflexivity |]. split.
      * intros [_ Hoff]. discriminate.
      * intros _. split; reflexivity.
    + destruct (fetch handler request w1) as [[reason|v] w2]; simpl;
        try destruct (params handler) as [ps|]; simpl;
        (eexists; split; [flatten_calls; reflexivity |]; split;
         [intros _; eexists; eexists; split; [reflexivity | split; reflexivity]
         | intros Hno; exfalso; apply Hno; split; [exists w1; reflexivity | reflexivity]]).
Qed.

Lemma warning_exactly_on_fallback_witness :
  let handler :=
    spec_handler (network_answering ok_response) default_strategy fetch_event
      (params_with JsUndefined) in
  let out := _handleFetch "development" default_strategy app_js handler (start empty_world) in
  exists new, calls (snd out) = [] ++ new /\
    ((exists w1, cacheMatch handler app_js empty_world = (inr None, w1)) /\
     fallback_disabled handler = false ->
     exists args rest,
       new = CacheMatchCall app_js :: LoggerCall "warn" args :: FetchCall app_js :: rest /\
       warnings rest = [] /\ fetches rest = []) /\
    (~ ((exists w1, cacheMatch handler app_js empty_world = (inr None, w1)) /\
        fallback_disabled handler = false) ->
     warnings new = [] /\ fetches new = []).
Proof.
  apply (warning_exactly_on_fallback "development" default_strategy app_js
           (spec_handler (network_answering ok_response) default_strategy fetch_event
              (params_with JsUndefined))
           (start empty_world)).
  reflexivity.
Defined.

(** X12: Each path raises only its own error: an install never ends in the
    missing-entry error, and serving a request never ends in the
    bad-response error. *)
Theorem each_path_raises_its_own_error {W} (NODE_ENV : string) (this : PrecacheStrategy)
    (request : Request) (handler : StrategyHandler W) (s : Run W) :
  is_missing_entry (fst (_handleInstall this request handler s)) = false /\
  is_bad_response (fst (_handleFetch NODE_ENV this request handler s)) = false.
Proof.
  split; run_strategy.
  - destruct (fetchAndCachePut handler request (world s)) as [[reason|[response|]] w'];
      simpl; try reflexivity.
    destruct ((status response >=? 400)%Z && negb (_usesCustomCacheableResponseLogic this));
      reflexivity.
  - destruct (cacheMatch handler request (world s)) as [[reason|[stored|]] w1]; simpl.
    + reflexivity.
    + destruct (not_production NODE_ENV); simpl;
        try destruct (params handler) as [ps|]; reflexivity.
    + destruct (fallback_disabled handler); simpl; [reflexivity |].
      destruct (not_production NODE_ENV); simpl;
        destruct (fetch handler request w1) as [[reason|v] w2]; simpl;
        try destruct (params handler) as [ps|]; reflexivity.
Qed.

(** X13: The transform the constructor registers never counts as custom logic:
    a constructed strategy uses custom cacheable-response logic exactly
    when one of the caller's own plugins carries a will-update transform.
    In particular a strategy built without plugins uses the default
    check. *)
Theorem constructed_strategy_detects_only_caller_transforms (options : StrategyOptions) :
  _usesCustomCacheableResponseLogic (constructor options) = true <->
  exists plugin cb,
    In plugin (default [] (options_plugins options)) /\
    cacheWillUpdate plugin = Some cb /\
    not_copyRedirectedResponses cb = true.
Proof.
  rewrite usesCustomCacheableResponseLogic_iff.
  change (plugins (constructor options))
    with (default [] (options_plugins options) ++ [redirect_plugin]).
  split.
  - intros (plugin & cb & Hin & Hplugin & Hcb).
    apply in_app_or in Hin as [Hin | [<- | []]].
    + exists plugin, cb. auto.
    + simpl in Hplugin. injection Hplugin as <-. discriminate.
  - intros (plugin & cb & Hin & Hplugin & Hcb).
    exists plugin, cb. split; [apply in_or_app; left; exact Hin | auto].
Qed.

Lemma run_cacheWillUpdate_app (ps qs : list WorkboxPlugin) (response : Response) :
  fst (run_cacheWillUpdate (ps ++ qs) response) =
  fst (run_cacheWillUpdate qs (fst (run_cacheWillUpdate ps response))).
Proof.
  revert response. induction ps as [|p rest IH]; intros response; simpl; [reflexivity |].
  destruct (cacheWillUpdate p) as [cb|]; [| apply IH].
  specialize (IH (call_cacheWillUpdate cb response)).
  destruct (run_cacheWillUpdate rest (call_cacheWillUpdate cb response)) as [r1 o1].
  destruct (run_cacheWillUpdate (rest ++ qs) (call_cacheWillUpdate cb response)) as [r2 o2].
  exact IH.
Qed.

(** X14: Because the constructor registers the redirect normalizer after the
    caller's plugins, what an install commits for a constructed strategy is
    what the normalizer returns: whatever the caller's transforms do, the
    entry stored under the request URL does not carry the redirect flag.
    (The transform chain and the commit are those of the collaborators as
    modelled above.) *)
Theorem committed_response_is_not_redirected (options : StrategyOptions)
    (network : string -> option Response) (request : Request) (w : World)
    (response : Response) :
  network (url request) = Some response ->
  let after := snd (CacheStore_fetchAndStore network (constructor options) request w) in
  exists stored,
    store after !! url request = Some stored /\ redirected stored = false.
Proof.
  intros Hnet after. subst after.
  rewrite (fetchAndStore_commits network (constructor options) request w response Hnet).
  cbn [snd store].
  exists (fst (run_cacheWillUpdate (plugins (constructor options)) response)).
  split; [apply lookup_insert_eq |].
  change (plugins (constructor options))
    with (default [] (options_plugins options) ++ [redirect_plugin]).
  rewrite run_cacheWillUpdate_app. simpl.
  unfold copyRedirectedResponses.
  destruct (redirected (fst (run_cacheWillUpdate (default [] (options_plugins options))
                               response))) eqn:Hflag; [reflexivity | exact Hflag].
Qed.

Lemma committed_response_is_not_redirected_witness :
  let after :=
    snd (CacheStore_fetchAndStore (network_answering redirected_response)
           probing_strategy app_js empty_world) in
  exists stored,
    store after !! url app_js = Some stored /\ redirected stored = false.
Proof.
  apply (committed_response_is_not_redirected
           {| options_cacheName := "precache-v1"; options_plugins := Some [redirect_probe] |}
           (network_answering redirected_response) app_js empty_world redirected_response).
  reflexivity.
Defined.

(** X15: The bad-response error is raised only by the status check: when an
    install ends in it, fetch-and-store did yield a response, its status is
    400 or more, no caller-supplied will-update transform is installed, and
    the error carries the URL of the request and that status. *)
Theorem bad_response_only_from_status_check {W} (this : PrecacheStrategy)
    (request : Request) (handler : StrategyHandler W) (s : Run W) :
  is_bad_response (fst (_handleInstall this request handler s)) = true ->
  exists response,
    fst (fetchAndCachePut handler request (world s)) = inr (Some response) /\
    (400 <= status response)%Z /\
    _usesCustomCacheableResponseLogic this = false /\
    fst (_handleInstall this request handler s) =
      inl (WorkboxError "bad-precaching-response"
             [("url", JsString (url request)); ("status", JsNumber (status response))]).
Proof.
  run_strategy.
  destruct (fetchAndCachePut handler request (world s)) as [[reason|[response|]] w']; simpl;
    try discriminate.
  destruct (Z.geb_spec (status response) 400) as [Hge | Hlt]; simpl; [| discriminate].
  destruct (_usesCustomCacheableResponseLogic this); simpl; [discriminate |].
  intros _. exists response. repeat split. lia.
Qed.

Lemma bad_response_only_from_status_check_witness :
  let handler :=
    spec_handler (network_answering not_found) default_strategy install_event None in
  exists response,
    fst (fetchAndCachePut handler app_js (world (start empty_world))) = inr (Some response) /\
    (400 <= status response)%Z /\
    _usesCustomCacheableResponseLogic default_strategy = false /\
    fst (_handleInstall default_strategy app_js handler (start empty_world)) =
      inl (WorkboxError "bad-precaching-response"
             [("url", JsString (url app_js)); ("status", JsNumber (status response))]).
Proof.
  apply (bad_response_only_from_status_check default_strategy app_js
           (spec_handler (network_answering not_found) default_strategy install_event None)
           (start empty_world)).
  reflexivity.
Defined.

Lemma handleInstall_resolves_iff_witness :
  fst (_handleInstall custom_strategy app_js
         (spec_handler (network_answering not_found) custom_strategy install_event None)
         (start empty_world)) = inr (Some not_found).
Proof.
  apply (proj2 (handleInstall_resolves_iff custom_strategy app_js
                  (spec_handler (network_answering not_found) custom_strategy
                     install_event None)
                  (start empty_world) (Some not_found))).
  exists not_found. split; [reflexivity |]. split; [reflexivity |]. right. reflexivity.
Defined.

Lemma constructed_strategy_detects_only_caller_transforms_witness :
  _usesCustomCacheableResponseLogic custom_strategy = true.
Proof.
  apply (proj2 (constructed_strategy_detects_only_caller_transforms
                  {| options_cacheName := "precache-v1";
                     options_plugins := Some [accept_all] |})).
  exists accept_all, (caller_callback "acceptAll" (fun response => response)).
  split; [left; reflexivity |]. split; reflexivity.
Defined.

Lemma handleFetch_miss_fetch_result_witness :
  let handler :=
    spec_handler (network_answering ok_response) default_strategy fetch_event
      (params_with (JsBoolean true)) in
  let out := _handleFetch "development" default_strategy app_js handler (start empty_world) in
  fst out = inr (Some ok_response) /\
  world (snd out) = {| store := ∅; fetched := ["/app.js"]; commits := [] |}.
Proof.
  apply (handleFetch_miss_fetch_result "development" default_strategy app_js
           (spec_handler (network_answering ok_response) default_strategy fetch_event
              (params_with (JsBoolean true)))
           (start empty_world) empty_world
           {| store := ∅; fetched := ["/app.js"]; commits := [] |} (Some ok_response)).
  - reflexivity.
  - reflexivity.
  - reflexivity.
  - right. eexists. reflexivity.
Defined.

(** ** The hook array over the lifetime of an instance *)






